(** * frontend/js/api.js: the JSON fetch helper [api]

    A shallow embedding of the one exported function of the front end,

      export async function api(path, method = "GET", body = null)

    together with the parts of the JavaScript platform it calls: truthiness
    ([ToBoolean]), string conversion ([ToString]), optional member access,
    [JSON.stringify], [JSON.parse], [fetch] and [Response.json].

    The asynchronous function is modelled in a small monad that threads the
    log of [fetch] invocations and carries a settled promise (resolved with
    a value or rejected with an exception) as its result. *)

From Stdlib Require Import String Ascii List ZArith NArith Lia Bool.
From Stdlib Require Import Sumbool Eqdep_dec.
From Stdlib Require Import DecimalString DecimalN DecimalFacts.
Import ListNotations.

Local Open Scope list_scope.
Local Open Scope string_scope.

#[local] Set Warnings "-register-all".

(** ** Exceptions and completions *)

(** Exceptions that are thrown, or that a promise is rejected with. *)
Inductive exn : Type :=
| Error (message : string)
| TypeError (message : string)
| SyntaxError (message : string)
| DOMException (name message : string).

(** The outcome of evaluating an expression: a value, or a throw. *)
Inductive completion (A : Type) : Type :=
| Normal (a : A)
| Abrupt (e : exn).
Arguments Normal {A} a.
Arguments Abrupt {A} e.

(** ** JavaScript values *)

Module JS.

Definition MAX_SAFE_INTEGER : Z := 9007199254740991.

(** The integers that a number holds exactly and prints in plain decimal:
    those of magnitude at most 2^53 - 1. *)
Record safe_integer : Type := {
  integer : Z;
  integer_safe : (Z.abs integer <=? MAX_SAFE_INTEGER)%Z = true
}.

Definition safe_integer_of (z : Z) : option safe_integer :=
  match sumbool_of_bool (Z.abs z <=? MAX_SAFE_INTEGER)%Z with
  | left H => Some {| integer := z; integer_safe := H |}
  | right _ => None
  end.

(** Numbers.  The helper performs no arithmetic; what matters of a number is
    whether it is falsy, whether it is finite, and how it prints.  The
    numbers of the embedding are the safe integers and the four special
    numbers; every other number (one with a fractional part, or of
    magnitude above 2^53 - 1) is outside the embedding. *)
Inductive number : Type :=
| SafeInt (i : safe_integer)
| NegZero
| NaN
| Infinity
| NegInfinity.

(** [Int z] is the number [z], for a literal [z] in the safe range. *)
Abbreviation Int z := (SafeInt {| integer := z; integer_safe := eq_refl |}).

(** Data: the values that [JSON.parse] produces, and [undefined] and the
    special numbers with them.  Strings are sequences of code units below
    256.  [VObj] lists the own properties of a plain object in enumeration
    order. *)
Inductive value : Type :=
| VUndefined
| VNull
| VBool (b : bool)
| VNum (n : number)
| VStr (s : string)
| VArr (elems : list value)
| VObj (props : list (string * value)).

(** What a caller can pass as [body]: data; a BigInt; a function; a
    symbol; or an object whose serialization the embedding does not
    compute, given by what [JSON.stringify] makes of it.  Such an object
    is a structure that contains itself or holds a BigInt (a TypeError is
    thrown), or one with a [toJSON] method (the text of what the method
    returns, or [undefined], or what the method throws). *)
Inductive argument : Type :=
| Value (v : value)
| BigInt (z : Z)
| Callable
| SymbolValue
| Opaque (serialized : completion (option string)).

(** The condition of [c ? a : b] and of [if (c)]: +0, -0, NaN, the empty
    string, [false], [null] and [undefined] are falsy, everything else is
    truthy (every array and every object included). *)
Definition ToBoolean (v : value) : bool :=
  match v with
  | VUndefined | VNull => false
  | VBool b => b
  | VNum (SafeInt i) => negb (Z.eqb (integer i) 0)
  | VNum NegZero | VNum NaN => false
  | VNum Infinity | VNum NegInfinity => true
  | VStr s => negb (String.eqb s "")
  | VArr _ | VObj _ => true
  end.

(** The same condition on an argument: [0n] is falsy, every other BigInt,
    every function, symbol and object is truthy. *)
Definition is_truthy (b : argument) : bool :=
  match b with
  | Value v => ToBoolean v
  | BigInt z => negb (Z.eqb z 0)
  | Callable | SymbolValue | Opaque _ => true
  end.

(** Decimal digits of a natural number, as a template literal prints
    [res.status]. *)
Definition decimal (n : N) : string :=
  NilEmpty.string_of_uint (N.to_uint n).

(** [Number::toString] on the numbers of the embedding: a safe integer
    prints in plain decimal. *)
Definition Number_toString (n : number) : string :=
  match n with
  | SafeInt i =>
      match integer i with
      | Zneg p => String "-" (decimal (Npos p))
      | z => decimal (Z.to_N z)
      end
  | NegZero => "0"
  | NaN => "NaN"
  | Infinity => "Infinity"
  | NegInfinity => "-Infinity"
  end.

Definition is_finite (n : number) : bool :=
  match n with
  | SafeInt _ | NegZero => true
  | NaN | Infinity | NegInfinity => false
  end.

(** Own-property lookup in a property list. *)
Fixpoint own_property (props : list (string * value)) (key : string)
  : option value :=
  match props with
  | [] => None
  | (k, v) :: rest => if String.eqb k key then Some v else own_property rest key
  end.

(** [j?.key] for a key that no built-in prototype defines (such as
    [message]): [undefined] on [null] and [undefined] by the optional
    chain, the own property of an object if it has one, and [undefined]
    on every other value. *)
Definition optional_member (j : value) (key : string) : value :=
  match j with
  | VObj props =>
      match own_property props key with
      | Some v => v
      | None => VUndefined
      end
  | _ => VUndefined
  end.

Fixpoint join (sep : string) (parts : list string) : string :=
  match parts with
  | [] => ""
  | [p] => p
  | p :: rest => p ++ sep ++ join sep rest
  end.

(** [ToString], the conversion the [Error] constructor applies to its
    argument.  [None] stands for the TypeError of [OrdinaryToPrimitive]: an
    object whose own [toString] property shadows the inherited method cannot
    be converted, since no value of the embedding is callable.  Arrays
    convert through [Array.prototype.join], which prints [null] and
    [undefined] elements as the empty string. *)
Fixpoint ToString (v : value) : option string :=
  match v with
  | VUndefined => Some "undefined"
  | VNull => Some "null"
  | VBool true => Some "true"
  | VBool false => Some "false"
  | VNum n => Some (Number_toString n)
  | VStr s => Some s
  | VArr elems =>
      let fix parts (l : list value) : option (list string) :=
        match l with
        | [] => Some []
        | e :: rest =>
            match (match e with
                   | VUndefined | VNull => Some ""
                   | _ => ToString e
                   end), parts rest with
            | Some s, Some ss => Some (s :: ss)
            | _, _ => None
            end
        end in
      option_map (join ",") (parts elems)
  | VObj props =>
      match own_property props "toString" with
      | Some _ => None
      | None => Some "[object Object]"
      end
  end.

End JS.

(** Data is passed as an argument as it is. *)
Coercion JS.Value : JS.value >-> JS.argument.

(** ** The platform's JSON object *)

Module JSON.
Import JS.

Definition dquote : ascii := ascii_of_N 34.
Definition backslash : ascii := ascii_of_N 92.

Definition hex_digit (n : N) : ascii :=
  if (n <? 10)%N then ascii_of_N (48 + n) else ascii_of_N (87 + n).

(** One code unit of a quoted string, as [QuoteJSONString] writes it: the
    two-character escapes, [\u00XX] for the other control characters, and
    the code unit itself otherwise. *)
Definition escape (c : ascii) : string :=
  let n := N_of_ascii c in
  if (n =? 8)%N then String backslash "b"
  else if (n =? 9)%N then String backslash "t"
  else if (n =? 10)%N then String backslash "n"
  else if (n =? 12)%N then String backslash "f"
  else if (n =? 13)%N then String backslash "r"
  else if (n =? 34)%N then String backslash (String dquote "")
  else if (n =? 92)%N then String backslash (String backslash "")
  else if (n <? 32)%N then
    String backslash
      (String "u" (String "0" (String "0"
        (String (hex_digit (n / 16)) (String (hex_digit (n mod 16)) "")))))
  else String c "".

Fixpoint quote_body (s : string) : string :=
  match s with
  | "" => ""
  | String c rest => escape c ++ quote_body rest
  end.

Definition QuoteJSONString (s : string) : string :=
  String dquote (quote_body s ++ String dquote "").

(** [SerializeJSONProperty] on data: [None] is the [undefined] that
    [JSON.stringify(undefined)] returns.  Non-finite numbers print as
    [null]; inside an array an [undefined] element prints as [null]; inside
    an object a property whose value is [undefined] is left out. *)
Fixpoint SerializeJSONProperty (v : value) : option string :=
  match v with
  | VUndefined => None
  | VNull => Some "null"
  | VBool true => Some "true"
  | VBool false => Some "false"
  | VNum n => Some (if is_finite n then Number_toString n else "null")
  | VStr s => Some (QuoteJSONString s)
  | VArr elems =>
      let fix items (l : list value) : list string :=
        match l with
        | [] => []
        | e :: rest =>
            match SerializeJSONProperty e with
            | Some t => t
            | None => "null"
            end :: items rest
        end in
      Some ("[" ++ join "," (items elems) ++ "]")
  | VObj props =>
      let fix members (l : list (string * value)) : list string :=
        match l with
        | [] => []
        | (k, e) :: rest =>
            match SerializeJSONProperty e with
            | Some t => (QuoteJSONString k ++ ":" ++ t) :: members rest
            | None => members rest
            end
        end in
      Some ("{" ++ join "," (members props) ++ "}")
  end.

(** [JSON.stringify(b)] with no replacer and no indentation.  It returns
    a text, or [undefined] ([None]: for [undefined], a function or a
    symbol), or throws: a TypeError for a BigInt. *)
Definition stringify (b : argument) : completion (option string) :=
  match b with
  | Value v => Normal (SerializeJSONProperty v)
  | BigInt _ => Abrupt (TypeError "Do not know how to serialize a BigInt")
  | Callable | SymbolValue => Normal None
  | Opaque serialized => serialized
  end.

(** *** JSON.parse *)

(** What reading a text gives: a result; the SyntaxError of a text that is
    not JSON; or nothing, for a text that denotes a value outside the
    embedding (a number with a fraction or an exponent or beyond the safe
    range, a code unit above 255, an object with an index key) or that
    needs more fuel than was given.  The embedding says nothing about
    such a text. *)
Inductive outcome (A : Type) : Type :=
| Ok (a : A)
| Syntax_error
| Unrepresented.
Arguments Ok {A} a.
Arguments Syntax_error {A}.
Arguments Unrepresented {A}.

Definition and_then {A B} (r : outcome A) (k : A -> outcome B) : outcome B :=
  match r with
  | Ok a => k a
  | Syntax_error => Syntax_error
  | Unrepresented => Unrepresented
  end.

Definition is_ws (c : ascii) : bool :=
  let n := N_of_ascii c in
  ((n =? 32) || (n =? 9) || (n =? 10) || (n =? 13))%N.

Fixpoint skip_ws (s : string) : string :=
  match s with
  | String c rest => if is_ws c then skip_ws rest else s
  | "" => ""
  end.

Fixpoint strip_prefix (p s : string) : option string :=
  match p, s with
  | "", _ => Some s
  | String a p', String b s' => if Ascii.eqb a b then strip_prefix p' s' else None
  | String _ _, "" => None
  end.

(** The literal names [null], [true] and [false]. *)
Definition parse_literal (name : string) (v : value) (s : string)
  : outcome (value * string) :=
  match strip_prefix name s with
  | Some rest => Ok (v, rest)
  | None => Syntax_error
  end.

Definition unescape (e : ascii) : option ascii :=
  let n := N_of_ascii e in
  if (n =? 34)%N then Some dquote
  else if (n =? 92)%N then Some backslash
  else if (n =? 47)%N then Some "/"%char
  else if (n =? 98)%N then Some (ascii_of_N 8)
  else if (n =? 102)%N then Some (ascii_of_N 12)
  else if (n =? 110)%N then Some (ascii_of_N 10)
  else if (n =? 114)%N then Some (ascii_of_N 13)
  else if (n =? 116)%N then Some (ascii_of_N 9)
  else None.

Definition hex_value (c : ascii) : option N :=
  let n := N_of_ascii c in
  if ((48 <=? n) && (n <=? 57))%N then Some (n - 48)%N
  else if ((97 <=? n) && (n <=? 102))%N then Some (n - 87)%N
  else if ((65 <=? n) && (n <=? 70))%N then Some (n - 55)%N
  else None.

Definition hex4 (a b c d : ascii) : option N :=
  match hex_value a, hex_value b, hex_value c, hex_value d with
  | Some x, Some y, Some z, Some w => Some (((x * 16 + y) * 16 + z) * 16 + w)%N
  | _, _, _, _ => None
  end.

Definition cons_char (c : ascii) (r : outcome (string * string))
  : outcome (string * string) :=
  and_then r (fun p => Ok (String c (fst p), snd p)).

(** The characters of a string literal after its opening quote, up to and
    including the closing quote.  A [\u] escape of a code unit above 255
    denotes a string outside the embedding. *)
Fixpoint parse_chars (s : string) : outcome (string * string) :=
  match s with
  | "" => Syntax_error
  | String c r =>
      let n := N_of_ascii c in
      if (n =? 34)%N then Ok ("", r)
      else if (n =? 92)%N then
        match r with
        | "" => Syntax_error
        | String e r1 =>
            match unescape e with
            | Some c' => cons_char c' (parse_chars r1)
            | None =>
                if (N_of_ascii e =? 117)%N then
                  match r1 with
                  | String h1 (String h2 (String h3 (String h4 r2))) =>
                      match hex4 h1 h2 h3 h4 with
                      | Some code =>
                          if (code <? 256)%N
                          then cons_char (ascii_of_N code) (parse_chars r2)
                          else Unrepresented
                      | None => Syntax_error
                      end
                  | _ => Syntax_error
                  end
                else Syntax_error
            end
        end
      else if (n <? 32)%N then Syntax_error
      else cons_char c (parse_chars r)
  end.

Definition digit_of (c : ascii) : option (Decimal.uint -> Decimal.uint) :=
  match N_of_ascii c with
  | 48 => Some Decimal.D0 | 49 => Some Decimal.D1 | 50 => Some Decimal.D2
  | 51 => Some Decimal.D3 | 52 => Some Decimal.D4 | 53 => Some Decimal.D5
  | 54 => Some Decimal.D6 | 55 => Some Decimal.D7 | 56 => Some Decimal.D8
  | 57 => Some Decimal.D9
  | _ => None
  end%N.

(** The longest run of decimal digits at the head of [s]. *)
Fixpoint read_digits (s : string) : Decimal.uint * string :=
  match s with
  | "" => (Decimal.Nil, "")
  | String c r =>
      match digit_of c with
      | Some d => let (ds, rest) := read_digits r in (d ds, rest)
      | None => (Decimal.Nil, s)
      end
  end.

(** A fraction or an exponent follows. *)
Definition fraction_follows (s : string) : bool :=
  match s with
  | String c _ =>
      let n := N_of_ascii c in ((n =? 46) || (n =? 101) || (n =? 69))%N
  | "" => false
  end.

Definition leading_zero (d : Decimal.uint) : bool :=
  match d with
  | Decimal.D0 Decimal.Nil => false
  | Decimal.D0 _ => true
  | _ => false
  end.

Definition no_digit (d : Decimal.uint) : bool :=
  match d with
  | Decimal.Nil => true
  | _ => false
  end.

Definition split_sign (s : string) : bool * string :=
  match s with
  | String c r => if (N_of_ascii c =? 45)%N then (true, r) else (false, s)
  | "" => (false, s)
  end.

(** The digits of a number after its sign: an integer part without a
    leading zero.  With a fraction or an exponent after it, or beyond the
    safe range, the number is outside the embedding. *)
Definition parse_magnitude (neg : bool) (s : string)
  : outcome (number * string) :=
  let (d, rest) := read_digits s in
  if no_digit d || leading_zero d then Syntax_error
  else if fraction_follows rest then Unrepresented
  else
    let n := N.of_uint d in
    if neg && (n =? 0)%N then Ok (NegZero, rest)
    else
      match safe_integer_of (if neg then - Z.of_N n else Z.of_N n) with
      | Some i => Ok (SafeInt i, rest)
      | None => Unrepresented
      end.

(** A number: an optional minus sign, then its digits. *)
Definition parse_number (s : string) : outcome (number * string) :=
  let (neg, s1) := split_sign s in parse_magnitude neg s1.

(** [CreateDataProperty] on a property list: a key already present keeps
    its place and takes the new value, a new key goes last. *)
Fixpoint set_property (props : list (string * value)) (k : string) (v : value)
  : list (string * value) :=
  match props with
  | [] => [(k, v)]
  | (k', v') :: rest =>
      if String.eqb k' k then (k', v) :: rest
      else (k', v') :: set_property rest k v
  end.

Definition object_of_members (ms : list (string * value))
  : list (string * value) :=
  fold_left (fun o kv => set_property o (fst kv) (snd kv)) ms [].

Definition is_digit (c : ascii) : bool :=
  match digit_of c with
  | Some _ => true
  | None => false
  end.

Fixpoint all_digits (s : string) : bool :=
  match s with
  | "" => true
  | String c rest => is_digit c && all_digits rest
  end.

(** A key written in digits only.  The array indices are among these
    keys; an object enumerates its array indices before its other keys,
    in ascending order, whatever the order of creation. *)
Definition index_like (key : string) : bool :=
  negb (String.eqb key "") && all_digits key.

(** The object that the members of an object text build, in the order of
    the text; with an index-like key among them the enumeration order is
    another one, and the object is left outside the embedding. *)
Definition build_object (ms : list (string * value)) : outcome value :=
  if existsb index_like (map fst ms) then Unrepresented
  else Ok (VObj (object_of_members ms)).

(** Recursive descent over the JSON grammar.  [fuel] bounds the number of
    nested calls. *)
Fixpoint parse_value (fuel : nat) (s : string) {struct fuel}
  : outcome (value * string) :=
  match fuel with
  | O => Unrepresented
  | S fuel' =>
      match skip_ws s with
      | "" => Syntax_error
      | String c r as t =>
          let n := N_of_ascii c in
          if (n =? 34)%N then
            and_then (parse_chars r) (fun p => Ok (VStr (fst p), snd p))
          else if (n =? 91)%N then
            match skip_ws r with
            | String c' r' =>
                if (N_of_ascii c' =? 93)%N then Ok (VArr [], r')
                else
                  and_then (parse_elements fuel' r)
                           (fun p => Ok (VArr (fst p), snd p))
            | "" => Syntax_error
            end
          else if (n =? 123)%N then
            match skip_ws r with
            | String c' r' =>
                if (N_of_ascii c' =? 125)%N then Ok (VObj [], r')
                else
                  and_then (parse_members fuel' r)
                           (fun p =>
                              and_then (build_object (fst p))
                                       (fun o => Ok (o, snd p)))
            | "" => Syntax_error
            end
          else if (n =? 110)%N then parse_literal "null" VNull t
          else if (n =? 116)%N then parse_literal "true" (VBool true) t
          else if (n =? 102)%N then parse_literal "false" (VBool false) t
          else
            and_then (parse_number t) (fun p => Ok (VNum (fst p), snd p))
      end
  end

with parse_elements (fuel : nat) (s : string) {struct fuel}
  : outcome (list value * string) :=
  match fuel with
  | O => Unrepresented
  | S fuel' =>
      and_then (parse_value fuel' s)
        (fun p =>
           match skip_ws (snd p) with
           | String c r' =>
               if (N_of_ascii c =? 44)%N then
                 and_then (parse_elements fuel' r')
                          (fun q => Ok (fst p :: fst q, snd q))
               else if (N_of_ascii c =? 93)%N then Ok ([fst p], r')
               else Syntax_error
           | "" => Syntax_error
           end)
  end

with parse_members (fuel : nat) (s : string) {struct fuel}
  : outcome (list (string * value) * string) :=
  match fuel with
  | O => Unrepresented
  | S fuel' =>
      match skip_ws s with
      | String q r0 =>
          if (N_of_ascii q =? 34)%N then
            and_then (parse_chars r0)
              (fun key =>
                 match skip_ws (snd key) with
                 | String colon r2 =>
                     if (N_of_ascii colon =? 58)%N then
                       and_then (parse_value fuel' r2)
                         (fun p =>
                            match skip_ws (snd p) with
                            | String c r4 =>
                                if (N_of_ascii c =? 44)%N then
                                  and_then (parse_members fuel' r4)
                                    (fun q =>
                                       Ok ((fst key, fst p) :: fst q, snd q))
                                else if (N_of_ascii c =? 125)%N
                                then Ok ([(fst key, fst p)], r4)
                                else Syntax_error
                            | "" => Syntax_error
                            end)
                     else Syntax_error
                 | "" => Syntax_error
                 end)
          else Syntax_error
      | "" => Syntax_error
      end
  end.

(** [JSON.parse(text)].  The descent is given one unit of fuel per
    character of the text, and one more. *)
Definition parse (text : string) : outcome value :=
  and_then (parse_value (S (String.length text)) text)
    (fun p =>
       match skip_ws (snd p) with
       | "" => Ok (fst p)
       | String _ _ => Syntax_error
       end).

(** *** Data that is read back

    The data that a JSON text denotes and that the embedding holds: no
    [undefined], the safe integers as numbers, and objects whose keys are
    pairwise distinct and not index-like. *)

Fixpoint distinct (keys : list string) : bool :=
  match keys with
  | [] => true
  | k :: rest => negb (existsb (String.eqb k) rest) && distinct rest
  end.

Fixpoint is_json_value (v : value) : bool :=
  match v with
  | VUndefined => false
  | VNull | VBool _ | VStr _ => true
  | VNum (SafeInt _) => true
  | VNum _ => false
  | VArr elems =>
      (fix all (l : list value) : bool :=
         match l with
         | [] => true
         | e :: rest => is_json_value e && all rest
         end) elems
  | VObj props =>
      distinct (map fst props)
      && negb (existsb index_like (map fst props))
      && (fix all (l : list (string * value)) : bool :=
            match l with
            | [] => true
            | (_, e) :: rest => is_json_value e && all rest
            end) props
  end.

(** Number of calls of the descent that parsing the text of a value
    takes. *)
Fixpoint weight (v : value) : nat :=
  match v with
  | VArr elems =>
      S ((fix sum (l : list value) : nat :=
            match l with
            | [] => O
            | e :: rest => S (weight e + sum rest)
            end) elems)
  | VObj props =>
      S ((fix sum (l : list (string * value)) : nat :=
            match l with
            | [] => O
            | (_, e) :: rest => S (weight e + sum rest)
            end) props)
  | _ => 1
  end.

(** The pieces of [SerializeJSONProperty] and of [weight], named. *)

Definition text_or_null (e : value) : string :=
  match SerializeJSONProperty e with
  | Some t => t
  | None => "null"
  end.

Definition items (l : list value) : list string := map text_or_null l.

Fixpoint members (l : list (string * value)) : list string :=
  match l with
  | [] => []
  | (k, e) :: rest =>
      match SerializeJSONProperty e with
      | Some t => (QuoteJSONString k ++ ":" ++ t) :: members rest
      | None => members rest
      end
  end.

Fixpoint sum_weight (l : list value) : nat :=
  match l with
  | [] => O
  | e :: rest => S (weight e + sum_weight rest)
  end.

Fixpoint sum_weight_props (l : list (string * value)) : nat :=
  match l with
  | [] => O
  | (_, e) :: rest => S (weight e + sum_weight_props rest)
  end.

(** What may come after a value inside a text: the end, a comma, or a
    closing bracket or brace. *)
Definition follow (rest : string) : bool :=
  match rest with
  | "" => true
  | String c _ =>
      let n := N_of_ascii c in ((n =? 44) || (n =? 93) || (n =? 125))%N
  end.

Definition digit_follows (s : string) : bool :=
  match s with
  | String c _ => is_digit c
  | "" => false
  end.

Definition number_head (s : string) : bool :=
  match s with
  | String c _ => (N_of_ascii c =? 45)%N || digit_follows s
  | "" => false
  end.

(** The text starts a value: its first character is neither white space
    nor a closing bracket or brace. *)
Definition starts_value (s : string) : bool :=
  match s with
  | String c _ =>
      let n := N_of_ascii c in
      negb (is_ws c) && negb (n =? 93)%N && negb (n =? 125)%N
  | "" => false
  end.

(** Such data has a text, and the descent reads the data back from it,
    whatever admissible text comes after. *)
Definition reads_back (v : value) : Prop :=
  is_json_value v = true ->
  exists t,
    SerializeJSONProperty v = Some t /\
    weight v <= String.length t /\
    (forall rest, starts_value (t ++ rest) = true) /\
    (forall fuel rest,
        weight v <= fuel -> follow rest = true ->
        parse_value fuel (t ++ rest) = Ok (v, rest)).

End JSON.

(** ** fetch *)

(** What [api] passes to [fetch]: the resource and the init dictionary.
    [body = None] is the [null] (or [undefined]) of a request without a
    body. *)
Module Request.
Record t : Type := {
  url : string;
  method : string;
  credentials : string;
  headers : list (string * string);
  body : option string
}.
End Request.

(** A settled promise. *)
Inductive settled (A : Type) : Type :=
| Resolved (a : A)
| Rejected (e : exn).
Arguments Resolved {A} a.
Arguments Rejected {A} e.

(** What [api] reads of a [Response]: [status], [ok] (derived from the
    status as the platform does) and the outcome of [json()], which is
    the parsed body, or the rejection of a body that cannot be read or is
    not JSON. *)
Module Response.
Record t : Type := {
  status : N;
  json : settled JS.value
}.
Definition ok (r : t) : bool := ((200 <=? status r) && (status r <=? 299))%N.
End Response.

(** ** Asynchronous computations

    An [async] function body, run to settlement: it takes the log of the
    [fetch] calls made so far and returns the settled result with the
    extended log. *)

Definition Async (A : Type) : Type :=
  list Request.t -> settled A * list Request.t.

Definition ret {A} (a : A) : Async A := fun log => (Resolved a, log).

Definition throw {A} (e : exn) : Async A := fun log => (Rejected e, log).

Definition bind {A B} (c : Async A) (k : A -> Async B) : Async B :=
  fun log =>
    match c log with
    | (Resolved a, log') => k a log'
    | (Rejected e, log') => (Rejected e, log')
    end.

(** [try { c } catch { h }] *)
Definition try_catch {A} (c : Async A) (h : exn -> Async A) : Async A :=
  fun log =>
    match c log with
    | (Resolved a, log') => (Resolved a, log')
    | (Rejected e, log') => h e log'
    end.

(** An expression evaluated inside the function: its throw rejects the
    promise of the function. *)
Definition evaluate {A} (c : completion A) : Async A :=
  match c with
  | Normal a => ret a
  | Abrupt e => throw e
  end.

Notation "x <- c ;; k" := (bind c (fun x => k))
  (at level 61, c at next level, right associativity).

Section Api.
Import JS.

(** The network: what a [fetch] of a request settles to, given the calls
    made before it.  A rejection is a transport failure. *)
Variable network : list Request.t -> Request.t -> settled Response.t.

Definition fetch (req : Request.t) : Async Response.t :=
  fun log => (network log req, log ++ [req])%list.

(** [await res.json()] *)
Definition Response_json (res : Response.t) : Async value :=
  fun log => (Response.json res, log).

(** [new Error(msg)], which converts its argument to a string. *)
Definition new_Error (msg : value) : Async exn :=
  match ToString msg with
  | Some s => ret (Error s)
  | None => throw (TypeError "Cannot convert object to primitive value")
  end.

Definition API_BASE : string := "/api".

(** The arguments of the [fetch] call (lines 5 to 10), with the body
    expression of line 9 evaluated. *)
Definition fetch_arguments (path method : string) (body : option string)
  : Request.t :=
  {| Request.url := API_BASE ++ path;
     Request.method := method;
     Request.credentials := "include";
     Request.headers := [("Content-Type", "application/json")];
     Request.body := body |}.

(** [`Request failed (${res.status})`] *)
Definition default_message (status : N) : string :=
  "Request failed (" ++ decimal status ++ ")".

(** [api(path, method = "GET", body = null)].  An argument that is omitted
    (or [undefined]) takes its default: [method = None] and
    [body = VUndefined] are the omitted arguments.  The arguments of
    [fetch] are evaluated before [fetch] is invoked: a throw of
    [JSON.stringify(body)] rejects the call with no request made. *)
Definition api (path : string) (method : option string) (body : argument)
  : Async value :=
  let method := match method with Some m => m | None => "GET" end in
  let body := match body with Value VUndefined => Value VNull | _ => body end in
  text <- (if is_truthy body then evaluate (JSON.stringify body)
           else ret None) ;;
  res <- fetch (fetch_arguments path method text) ;;
  if negb (Response.ok res) then
    let msg := VStr (default_message (Response.status res)) in
    msg <- try_catch
             (j <- Response_json res ;;
              ret (if ToBoolean (optional_member j "message")
                   then optional_member j "message"
                   else msg))
             (fun _ => ret msg) ;;
    e <- new_Error msg ;;
    throw e
  else
    Response_json res.

End Api.

(** The request that a call [api(path, method, body)] with data as its
    body hands to [fetch], with the defaults of omitted arguments filled
    in. *)
Definition sent_request (path : string) (method : option string)
           (body : JS.value) : Request.t :=
  let body := match body with JS.VUndefined => JS.VNull | _ => body end in
  fetch_arguments path
    (match method with Some m => m | None => "GET" end)
    (if JS.ToBoolean body then JSON.SerializeJSONProperty body else None).

(** The parsed body has a field of the given name. *)
Definition has_field (j : JS.value) (key : string) : bool :=
  match j with
  | JS.VObj props =>
      match JS.own_property props key with
      | Some _ => true
      | None => false
      end
  | _ => false
  end.

(** The text is the decimal numeral of [n]: digits only, no leading zero,
    of value [n].  The standard library's [uint_of_string] reads a text of
    digits into its list of digits, and [N.to_uint n] is the list of the
    digits of [n] without a leading zero. *)
Definition is_decimal_numeral (digits : string) (n : N) : Prop :=
  NilEmpty.uint_of_string digits = Some (N.to_uint n).

(** The message value is a primitive: neither an array nor an object. *)
Definition is_primitive (v : JS.value) : bool :=
  match v with
  | JS.VArr _ | JS.VObj _ => false
  | _ => true
  end.

(** Top-level JSON data: what a JSON text can denote. *)
Definition is_json_data (v : JS.value) : bool :=
  match v with
  | JS.VUndefined => false
  | JS.VNum n => JS.is_finite n
  | _ => true
  end.

(** A server that answers every request with the same response. *)
Definition respond (res : Response.t)
  : list Request.t -> Request.t -> settled Response.t :=
  fun _ _ => Resolved res.

(** A network on which every [fetch] fails. *)
Definition offline : list Request.t -> Request.t -> settled Response.t :=
  fun _ _ => Rejected (TypeError "Failed to fetch").

(** An object that contains itself, as an argument. *)
Definition circular : JS.argument :=
  JS.Opaque (Abrupt (TypeError "Converting circular structure to JSON")).

(** The rejection of [json()] on an empty body. *)
Definition empty_body_failure : exn :=
  SyntaxError "Unexpected end of JSON input".

(** Responses and bodies of the scenarios. *)
Definition login_response : Response.t :=
  {| Response.status := 200;
     Response.json := Resolved (JS.VObj [("token", JS.VStr "xyz")]) |}.

Definition not_found_response : Response.t :=
  {| Response.status := 404;
     Response.json := Resolved (JS.VObj [("message", JS.VStr "not found")]) |}.

Definition unavailable_response : Response.t :=
  {| Response.status := 503; Response.json := Rejected empty_body_failure |}.

Definition internal_error_response : Response.t :=
  {| Response.status := 500;
     Response.json := Resolved (JS.VObj [("error", JS.VStr "boom")]) |}.

Definition empty_message_response : Response.t :=
  {| Response.status := 400;
     Response.json := Resolved (JS.VObj [("message", JS.VStr EmptyString)]) |}.

Definition no_content_response : Response.t :=
  {| Response.status := 204; Response.json := Rejected empty_body_failure |}.

Definition zero_message_response : Response.t :=
  {| Response.status := 422;
     Response.json := Resolved (JS.VObj [("message", JS.VNum (JS.Int 0))]) |}.

Definition object_message_response : Response.t :=
  {| Response.status := 400;
     Response.json :=
       Resolved (JS.VObj [("message",
                           JS.VObj [("toString", JS.VNum (JS.Int 1))])]) |}.

Definition validation_response : Response.t :=
  {| Response.status := 400;
     Response.json :=
       Resolved
         (JS.VObj [("statusCode", JS.VNum (JS.Int 400));
                   ("message",
                    JS.VArr [JS.VStr "name is required";
                             JS.VStr "email is invalid"])]) |}.

Definition credentials_body : JS.value :=
  JS.VObj [("username", JS.VStr "a"); ("password", JS.VStr "b")].

(** * Properties *)

Import JS JSON.

(** ** Strings *)

Lemma append_assoc (a b c : string) : (a ++ b) ++ c = a ++ (b ++ c).
Proof. induction a as [|x a IH]; simpl; [reflexivity | now rewrite IH]. Qed.

Lemma append_nil_r (a : string) : a ++ "" = a.
Proof. induction a as [|x a IH]; simpl; [reflexivity | now rewrite IH]. Qed.

Lemma length_append (a b : string) :
  String.length (a ++ b) = String.length a + String.length b.
Proof. induction a as [|x a IH]; simpl; [reflexivity | now rewrite IH]. Qed.

(** Case analysis on the 256 code units. *)
Ltac char_cases c := destruct c as [[] [] [] [] [] [] [] []].

(** ** Safe integers *)

Lemma safe_integer_eq (i j : safe_integer) : integer i = integer j -> i = j.
Proof.
  destruct i as [z H], j as [z' H']; simpl; intros <-.
  f_equal. apply UIP_dec, bool_dec.
Qed.

Lemma safe_integer_of_integer (i : safe_integer) :
  safe_integer_of (integer i) = Some i.
Proof.
  unfold safe_integer_of.
  destruct (sumbool_of_bool _) as [H|H].
  - f_equal. now apply safe_integer_eq.
  - pose proof (integer_safe i). congruence.
Qed.

(** ** Quoted strings are read back *)

Lemma parse_chars_escape (c : ascii) (t : string) :
  parse_chars (escape c ++ t) = cons_char c (parse_chars t).
Proof.
  char_cases c; reflexivity.
Qed.

Lemma parse_chars_quote_body (s rest : string) :
  parse_chars (quote_body s ++ String dquote rest) = Ok (s, rest).
Proof.
  induction s as [|c s IH]; simpl.
  - reflexivity.
  - now rewrite append_assoc, parse_chars_escape, IH.
Qed.

(** ** Decimal numerals are read back *)

Lemma read_digits_string_of_uint (d : Decimal.uint) (rest : string) :
  digit_follows rest = false ->
  read_digits (NilEmpty.string_of_uint d ++ rest) = (d, rest).
Proof.
  intros Hrest.
  induction d as [|d IH|d IH|d IH|d IH|d IH|d IH|d IH|d IH|d IH|d IH];
    simpl; try (now rewrite IH).
  destruct rest as [|c r]; [reflexivity|].
  simpl in *. unfold is_digit in Hrest.
  destruct (digit_of c); [discriminate | reflexivity].
Qed.

Lemma to_uint_normal (n : N) : Decimal.unorm (N.to_uint n) = N.to_uint n.
Proof.
  rewrite <- (DecimalN.Unsigned.of_to n) at 2.
  now rewrite DecimalN.Unsigned.to_of.
Qed.

Lemma to_uint_no_leading_zero (n : N) (d : Decimal.uint) :
  N.to_uint n = Decimal.D0 d -> d = Decimal.Nil.
Proof.
  intros H. pose proof (to_uint_normal n) as Hn.
  rewrite H in Hn at 2. unfold Decimal.unorm in Hn.
  destruct (Decimal.nzhead (N.to_uint n)) eqn:E; try discriminate.
  - now inversion Hn.
  - exfalso. inversion Hn; subst. eapply DecimalFacts.nzhead_nonzero; eauto.
Qed.

Lemma to_uint_nonnil (n : N) : N.to_uint n <> Decimal.Nil.
Proof.
  rewrite <- to_uint_normal. apply DecimalFacts.unorm_nonnil.
Qed.

Lemma follow_no_digit (rest : string) :
  follow rest = true -> digit_follows rest = false.
Proof.
  destruct rest as [|c r]; [reflexivity|].
  char_cases c; simpl; intros H;
    first [reflexivity | discriminate H].
Qed.

Lemma follow_no_fraction (rest : string) :
  follow rest = true -> fraction_follows rest = false.
Proof.
  destruct rest as [|c r]; [reflexivity|].
  char_cases c; simpl; intros H;
    first [reflexivity | discriminate H].
Qed.

Lemma digit_head (c : ascii) (d : Decimal.uint -> Decimal.uint) :
  digit_of c = Some d ->
  (N_of_ascii c =? 45)%N = false /\ starts_value (String c "") = true.
Proof.
  char_cases c; simpl; intros H;
    first [discriminate H | split; reflexivity].
Qed.

Lemma decimal_head (n : N) :
  exists c t d, decimal n = String c t /\ digit_of c = Some d.
Proof.
  unfold decimal. pose proof (to_uint_nonnil n) as Hn.
  destruct (N.to_uint n); try congruence; simpl;
    do 3 eexists; split; reflexivity.
Qed.

Lemma parse_magnitude_decimal (neg : bool) (n : N) (rest : string) :
  follow rest = true ->
  parse_magnitude neg (decimal n ++ rest)
  = if neg && (n =? 0)%N then Ok (NegZero, rest)
    else
      match safe_integer_of (if neg then - Z.of_N n else Z.of_N n) with
      | Some i => Ok (SafeInt i, rest)
      | None => Unrepresented
      end.
Proof.
  intros Hf. unfold parse_magnitude, decimal.
  rewrite read_digits_string_of_uint by now apply follow_no_digit.
  rewrite follow_no_fraction by assumption.
  assert (Hz : leading_zero (N.to_uint n) = false).
  { destruct (N.to_uint n) as [|u| | | | | | | | | ] eqn:E; try reflexivity.
    apply to_uint_no_leading_zero in E. now subst. }
  assert (Hnil : no_digit (N.to_uint n) = false).
  { pose proof (to_uint_nonnil n). now destruct (N.to_uint n). }
  rewrite Hz, Hnil. cbv zeta. simpl orb. cbv iota.
  now rewrite DecimalN.Unsigned.of_to.
Qed.

Lemma split_sign_decimal (n : N) (rest : string) :
  split_sign (decimal n ++ rest) = (false, decimal n ++ rest).
Proof.
  destruct (decimal_head n) as (c & t & d & Hc & Hd).
  destruct (digit_head _ _ Hd) as [Hminus _].
  rewrite Hc. simpl. now rewrite Hminus.
Qed.

Lemma parse_number_toString (i : safe_integer) (rest : string) :
  follow rest = true ->
  parse_number (Number_toString (SafeInt i) ++ rest) = Ok (SafeInt i, rest).
Proof.
  intros Hf. unfold parse_number, Number_toString.
  pose proof (safe_integer_of_integer i) as Hi.
  destruct (integer i) as [|p|p] eqn:Ei.
  - rewrite split_sign_decimal, parse_magnitude_decimal by assumption.
    change (Z.of_N (Z.to_N 0)) with 0%Z. cbn [andb]. cbv iota.
    now rewrite Hi.
  - rewrite split_sign_decimal, parse_magnitude_decimal by assumption.
    change (Z.of_N (Z.to_N (Z.pos p))) with (Z.pos p). cbn [andb]. cbv iota.
    now rewrite Hi.
  - change (split_sign (String "-" (decimal (N.pos p)) ++ rest))
      with (true, decimal (N.pos p) ++ rest).
    cbv beta iota.
    rewrite parse_magnitude_decimal by assumption.
    change (- Z.of_N (N.pos p))%Z with (Z.neg p).
    change (true && (N.pos p =? 0)%N) with false. cbv iota.
    now rewrite Hi.
Qed.

(** ** Values and their texts *)

Lemma value_ind_nested (P : value -> Prop) :
  P VUndefined -> P VNull -> (forall b, P (VBool b)) ->
  (forall n, P (VNum n)) -> (forall s, P (VStr s)) ->
  (forall l, Forall P l -> P (VArr l)) ->
  (forall ps, Forall (fun kv => P (snd kv)) ps -> P (VObj ps)) ->
  forall v, P v.
Proof.
  intros Hu Hn Hb Hnum Hs Ha Ho.
  fix IH 1.
  intros [ | | b | n | s | l | ps];
    [exact Hu | exact Hn | apply Hb | apply Hnum | apply Hs | | ].
  - apply Ha. induction l as [|e l IHl]; constructor; [apply IH | exact IHl].
  - apply Ho. induction ps as [|[k e] ps IHps]; constructor;
      [apply IH | exact IHps].
Qed.

Lemma serialize_array (l : list value) :
  SerializeJSONProperty (VArr l) = Some ("[" ++ join "," (items l) ++ "]").
Proof.
  reflexivity.
Qed.

Lemma serialize_object (ps : list (string * value)) :
  SerializeJSONProperty (VObj ps) = Some ("{" ++ join "," (members ps) ++ "}").
Proof.
  reflexivity.
Qed.

Lemma is_json_array (l : list value) :
  is_json_value (VArr l) = forallb is_json_value l.
Proof.
  reflexivity.
Qed.

Lemma is_json_object (ps : list (string * value)) :
  is_json_value (VObj ps)
  = distinct (map fst ps)
    && negb (existsb index_like (map fst ps))
    && forallb (fun kv => is_json_value (snd kv)) ps.
Proof.
  simpl. f_equal.
  induction ps as [|[k e] ps IH]; simpl; [reflexivity | now rewrite IH].
Qed.

Lemma weight_array (l : list value) : weight (VArr l) = S (sum_weight l).
Proof.
  reflexivity.
Qed.

Lemma weight_object (ps : list (string * value)) :
  weight (VObj ps) = S (sum_weight_props ps).
Proof.
  reflexivity.
Qed.

Lemma join_cons_append (sep t : string) (ts : list string) (z : string) :
  join sep (t :: ts) ++ z
  = t ++ match ts with
         | [] => z
         | _ :: _ => sep ++ join sep ts ++ z
         end.
Proof.
  destruct ts as [|t' ts]; [reflexivity|].
  change (join sep (t :: t' :: ts)) with (t ++ sep ++ join sep (t' :: ts)).
  now rewrite !append_assoc.
Qed.

Lemma skip_ws_starts_value (s : string) :
  starts_value s = true -> skip_ws s = s.
Proof.
  destruct s as [|c r]; [reflexivity|]. simpl.
  destruct (is_ws c); [discriminate | reflexivity].
Qed.

Lemma parse_value_number (fuel : nat) (s : string) :
  number_head s = true ->
  parse_value (S fuel) s
  = and_then (parse_number s) (fun p => Ok (VNum (fst p), snd p)).
Proof.
  destruct s as [|c r]; [discriminate|].
  char_cases c; intros H;
    first [discriminate H | reflexivity].
Qed.

(** ** Objects with distinct keys are rebuilt as they were *)

Lemma existsb_eqb_false (k : string) (l : list string) :
  existsb (String.eqb k) l = false -> ~ In k l.
Proof.
  intros H Hin.
  assert (existsb (String.eqb k) l = true) as E
    by (apply existsb_exists; exists k; split;
        [assumption | apply String.eqb_refl]).
  congruence.
Qed.

Lemma set_property_fresh (acc : list (string * value)) (k : string) (v : value) :
  ~ In k (map fst acc) -> set_property acc k v = (acc ++ [(k, v)])%list.
Proof.
  induction acc as [|[k' v'] acc IH]; simpl; intros H; [reflexivity|].
  destruct (String.eqb_spec k' k) as [->|Hne].
  - exfalso. apply H. now left.
  - rewrite IH; [reflexivity|]. intros Hin. apply H. now right.
Qed.

Lemma fold_set_property (ps acc : list (string * value)) :
  distinct (map fst ps) = true ->
  (forall k, In k (map fst ps) -> ~ In k (map fst acc)) ->
  fold_left (fun o kv => set_property o (fst kv) (snd kv)) ps acc
  = (acc ++ ps)%list.
Proof.
  revert acc. induction ps as [|[k v] ps IH]; intros acc Hd Hfresh; simpl.
  - now rewrite List.app_nil_r.
  - simpl in Hd. apply andb_prop in Hd as [Hk Hd].
    apply negb_true_iff in Hk. apply existsb_eqb_false in Hk.
    rewrite set_property_fresh by (apply Hfresh; now left).
    rewrite IH; [now rewrite <- List.app_assoc | assumption |].
    intros k' Hin. rewrite map_app, in_app_iff. simpl.
    intros [Hacc | [<- | []]].
    + apply (Hfresh k'); [now right | assumption].
    + contradiction.
Qed.

Lemma object_of_members_distinct (ps : list (string * value)) :
  distinct (map fst ps) = true -> object_of_members ps = ps.
Proof.
  intros Hd. unfold object_of_members.
  rewrite fold_set_property; [reflexivity | assumption |].
  intros k _ [].
Qed.

Lemma build_object_plain (ps : list (string * value)) :
  distinct (map fst ps) = true ->
  existsb index_like (map fst ps) = false ->
  build_object ps = Ok (VObj ps).
Proof.
  intros Hd Hi. unfold build_object.
  now rewrite Hi, object_of_members_distinct.
Qed.

(** ** The descent, one step at a time *)

Lemma parse_elements_step (fuel : nat) (s : string) :
  parse_elements (S fuel) s
  = and_then (parse_value fuel s)
      (fun p =>
         match skip_ws (snd p) with
         | String c r' =>
             if (N_of_ascii c =? 44)%N then
               and_then (parse_elements fuel r')
                        (fun q => Ok (fst p :: fst q, snd q))
             else if (N_of_ascii c =? 93)%N then Ok ([fst p], r')
             else Syntax_error
         | "" => Syntax_error
         end).
Proof. reflexivity. Qed.

Lemma parse_members_step (fuel : nat) (k r1 : string) :
  parse_members (S fuel) (QuoteJSONString k ++ String ":" r1)
  = and_then (parse_value fuel r1)
      (fun p =>
         match skip_ws (snd p) with
         | String c r4 =>
             if (N_of_ascii c =? 44)%N then
               and_then (parse_members fuel r4)
                        (fun q => Ok ((k, fst p) :: fst q, snd q))
             else if (N_of_ascii c =? 125)%N
             then Ok ([(k, fst p)], r4)
             else Syntax_error
         | "" => Syntax_error
         end).
Proof.
  unfold QuoteJSONString.
  change (String dquote (quote_body k ++ String dquote "") ++ String ":" r1)
    with (String dquote ((quote_body k ++ String dquote "") ++ String ":" r1)).
  rewrite append_assoc.
  change (String dquote "" ++ String ":" r1) with (String dquote (String ":" r1)).
  set (t := quote_body k ++ String dquote (String ":" r1)).
  change (parse_members (S fuel) (String dquote t))
    with (and_then (parse_chars t)
            (fun key =>
               match skip_ws (snd key) with
               | String colon r2 =>
                   if (N_of_ascii colon =? 58)%N then
                     and_then (parse_value fuel r2)
                       (fun p =>
                          match skip_ws (snd p) with
                          | String c r4 =>
                              if (N_of_ascii c =? 44)%N then
                                and_then (parse_members fuel r4)
                                  (fun q =>
                                     Ok ((fst key, fst p) :: fst q, snd q))
                              else if (N_of_ascii c =? 125)%N
                              then Ok ([(fst key, fst p)], r4)
                              else Syntax_error
                          | "" => Syntax_error
                          end)
                   else Syntax_error
               | "" => Syntax_error
               end)).
  unfold t. rewrite parse_chars_quote_body. reflexivity.
Qed.

Lemma parse_value_string (fuel : nat) (s rest : string) :
  parse_value (S fuel) (QuoteJSONString s ++ rest) = Ok (VStr s, rest).
Proof.
  unfold QuoteJSONString.
  change (String dquote (quote_body s ++ String dquote "") ++ rest)
    with (String dquote ((quote_body s ++ String dquote "") ++ rest)).
  rewrite append_assoc.
  change (String dquote "" ++ rest) with (String dquote rest).
  set (t := quote_body s ++ String dquote rest).
  change (parse_value (S fuel) (String dquote t))
    with (and_then (parse_chars t) (fun p => Ok (VStr (fst p), snd p))).
  unfold t. now rewrite parse_chars_quote_body.
Qed.

Lemma parse_value_array (fuel : nat) (r : string) :
  parse_value (S fuel) (String "[" r)
  = match skip_ws r with
    | String c' r' =>
        if (N_of_ascii c' =? 93)%N then Ok (VArr [], r')
        else
          and_then (parse_elements fuel r) (fun p => Ok (VArr (fst p), snd p))
    | "" => Syntax_error
    end.
Proof. reflexivity. Qed.

Lemma parse_value_object (fuel : nat) (r : string) :
  parse_value (S fuel) (String "{" r)
  = match skip_ws r with
    | String c' r' =>
        if (N_of_ascii c' =? 125)%N then Ok (VObj [], r')
        else
          and_then (parse_members fuel r)
                   (fun p =>
                      and_then (build_object (fst p)) (fun o => Ok (o, snd p)))
    | "" => Syntax_error
    end.
Proof. reflexivity. Qed.

(** ** Arrays and objects are read back *)

Lemma parse_elements_items (l : list value) :
  Forall reads_back l -> forallb is_json_value l = true -> l <> [] ->
  forall fuel rest,
    sum_weight l <= fuel ->
    parse_elements fuel (join "," (items l) ++ String "]" rest)
    = Ok (l, rest).
Proof.
  induction l as [|e l IH]; intros HF Hj Hne fuel rest Hfuel; [congruence|].
  inversion HF as [|? ? He Hl]; subst.
  simpl in Hj. apply andb_prop in Hj as [Hje Hjl].
  destruct (He Hje) as (t & Ht & _ & _ & Hparse).
  change (items (e :: l)) with (text_or_null e :: items l).
  unfold text_or_null at 1. rewrite Ht, join_cons_append.
  destruct fuel as [|fuel]; [simpl in Hfuel; lia|]. simpl in Hfuel.
  rewrite parse_elements_step.
  destruct l as [|e' l'].
  - simpl items. cbv iota. rewrite Hparse by (reflexivity || lia).
    reflexivity.
  - change (items (e' :: l')) with (text_or_null e' :: items l') in *.
    cbv iota.
    set (tail := join "," (text_or_null e' :: items l') ++ String "]" rest).
    change ("," ++ tail) with (String "," tail).
    rewrite Hparse by (reflexivity || lia).
    cbn [and_then fst snd].
    change (skip_ws (String "," tail)) with (String "," tail).
    cbv iota beta. change (N_of_ascii "," =? 44)%N with true. cbv iota.
    unfold tail.
    rewrite (IH Hl Hjl); [reflexivity | congruence | lia].
Qed.

Lemma members_cons (k : string) (e : value) (t : string)
      (ps : list (string * value)) :
  SerializeJSONProperty e = Some t ->
  members ((k, e) :: ps) = (QuoteJSONString k ++ ":" ++ t) :: members ps.
Proof. intros H. simpl. now rewrite H. Qed.

Lemma parse_members_text (ps : list (string * value)) :
  Forall (fun kv => reads_back (snd kv)) ps ->
  forallb (fun kv => is_json_value (snd kv)) ps = true -> ps <> [] ->
  forall fuel rest,
    sum_weight_props ps <= fuel ->
    parse_members fuel (join "," (members ps) ++ String "}" rest)
    = Ok (ps, rest).
Proof.
  induction ps as [|[k e] ps IH]; intros HF Hj Hne fuel rest Hfuel;
    [congruence|].
  inversion HF as [|? ? He Hl]; subst. simpl in He.
  simpl in Hj. apply andb_prop in Hj as [Hje Hjl].
  destruct (He Hje) as (t & Ht & _ & _ & Hparse).
  rewrite (members_cons _ _ _ _ Ht), join_cons_append, !append_assoc.
  destruct fuel as [|fuel]; [simpl in Hfuel; lia|]. simpl in Hfuel.
  change (":" ++ ?x) with (String ":" x).
  rewrite parse_members_step.
  destruct ps as [|[k' e'] ps'].
  - simpl members. cbv iota.
    rewrite Hparse by (reflexivity || lia). reflexivity.
  - inversion Hl as [|? ? He' _]; subst. simpl in He', Hjl.
    pose proof Hjl as Hjl'. apply andb_prop in Hjl' as [Hje' _].
    destruct (He' Hje') as (t' & Ht' & _).
    rewrite (members_cons _ _ _ _ Ht') in *. cbv iota.
    set (tail := join "," ((QuoteJSONString k' ++ ":" ++ t') :: members ps')
                 ++ String "}" rest) in *.
    change ("," ++ tail) with (String "," tail).
    rewrite Hparse by (reflexivity || lia).
    cbn [and_then fst snd].
    change (skip_ws (String "," tail)) with (String "," tail).
    cbv iota beta. change (N_of_ascii "," =? 44)%N with true. cbv iota.
    unfold tail.
    rewrite (IH Hl Hjl); [reflexivity | congruence | lia].
Qed.

Lemma sum_weight_items (l : list value) :
  Forall reads_back l -> forallb is_json_value l = true -> l <> [] ->
  sum_weight l <= String.length (join "," (items l)) + 1.
Proof.
  induction l as [|e l IH]; intros HF Hj Hne; [congruence|].
  inversion HF as [|? ? He Hl]; subst.
  simpl in Hj. apply andb_prop in Hj as [Hje Hjl].
  destruct (He Hje) as (t & Ht & Hlen & _).
  change (items (e :: l)) with (text_or_null e :: items l).
  unfold text_or_null at 1. rewrite Ht.
  rewrite <- (append_nil_r (join _ _)), join_cons_append.
  destruct l as [|e' l'].
  - simpl. rewrite append_nil_r. lia.
  - assert (e' :: l' <> []) as Hne' by congruence.
    specialize (IH Hl Hjl Hne').
    change (items (e' :: l')) with (text_or_null e' :: items l') in *.
    cbv iota. rewrite append_nil_r, !length_append.
    change (sum_weight (e :: e' :: l'))
      with (S (weight e + sum_weight (e' :: l'))).
    change (String.length ",") with 1. lia.
Qed.

Lemma sum_weight_members (ps : list (string * value)) :
  Forall (fun kv => reads_back (snd kv)) ps ->
  forallb (fun kv => is_json_value (snd kv)) ps = true -> ps <> [] ->
  sum_weight_props ps <= String.length (join "," (members ps)) + 1.
Proof.
  induction ps as [|[k e] ps IH]; intros HF Hj Hne; [congruence|].
  inversion HF as [|? ? He Hl]; subst. simpl in He.
  simpl in Hj. apply andb_prop in Hj as [Hje Hjl].
  destruct (He Hje) as (t & Ht & Hlen & _).
  rewrite (members_cons _ _ _ _ Ht).
  rewrite <- (append_nil_r (join _ _)), join_cons_append.
  destruct ps as [|[k' e'] ps'].
  - simpl members. cbv iota. rewrite append_nil_r, !length_append.
    simpl. lia.
  - assert ((k', e') :: ps' <> []) as Hne' by congruence.
    specialize (IH Hl Hjl Hne').
    inversion Hl as [|? ? He' _]; subst. simpl in He', Hjl.
    pose proof Hjl as Hjl'. apply andb_prop in Hjl' as [Hje' _].
    destruct (He' Hje') as (t' & Ht' & _).
    rewrite (members_cons _ _ _ _ Ht') in *. cbv iota.
    rewrite append_nil_r, !length_append.
    change (sum_weight_props ((k, e) :: (k', e') :: ps'))
      with (S (weight e + sum_weight_props ((k', e') :: ps'))).
    change (String.length ",") with 1. lia.
Qed.

Lemma peek_not_bracket {A : Type} (s : string) (a : string -> A) (b z : A) :
  starts_value s = true ->
  match skip_ws s with
  | String c r => if (N_of_ascii c =? 93)%N then a r else b
  | "" => z
  end = b.
Proof.
  intros H. rewrite (skip_ws_starts_value _ H).
  destruct s as [|c r]; [discriminate|]. simpl in H.
  destruct (N_of_ascii c =? 93)%N; [|reflexivity].
  rewrite andb_false_r in H. discriminate.
Qed.

Lemma peek_not_brace {A : Type} (s : string) (a : string -> A) (b z : A) :
  starts_value s = true ->
  match skip_ws s with
  | String c r => if (N_of_ascii c =? 125)%N then a r else b
  | "" => z
  end = b.
Proof.
  intros H. rewrite (skip_ws_starts_value _ H).
  destruct s as [|c r]; [discriminate|]. simpl in H.
  destruct (N_of_ascii c =? 125)%N; [|reflexivity].
  rewrite andb_false_r in H. discriminate.
Qed.

Lemma number_text_head (i : safe_integer) (rest : string) :
  1 <= String.length (Number_toString (SafeInt i)) /\
  starts_value (Number_toString (SafeInt i) ++ rest) = true /\
  number_head (Number_toString (SafeInt i) ++ rest) = true.
Proof.
  assert (H : forall n,
             1 <= String.length (decimal n) /\
             starts_value (decimal n ++ rest) = true /\
             number_head (decimal n ++ rest) = true).
  { intros n. destruct (decimal_head n) as (c & t & d & Hc & Hd).
    rewrite Hc. destruct (digit_head _ _ Hd) as [_ Hstart].
    repeat split.
    - simpl. lia.
    - exact Hstart.
    - simpl. unfold is_digit. rewrite Hd. apply orb_true_r. }
  unfold Number_toString. destruct (integer i) as [|p|p].
  - apply (H 0%N).
  - apply (H (Npos p)).
  - repeat split. simpl. lia.
Qed.

(** ** Such data is read back from its text *)

Lemma reads_back_all (v : value) : reads_back v.
Proof.
  induction v as [ | | b | n | s | l IH | ps IH] using value_ind_nested;
    intros Hj.
  - discriminate.
  - exists "null". repeat split; [simpl; lia|].
    intros [|fuel] rest Hfuel _; [simpl in Hfuel; lia | reflexivity].
  - exists (if b then "true" else "false"). destruct b;
      (repeat split; [simpl; lia|]);
      intros [|fuel] rest Hfuel _; (simpl in Hfuel; lia) || reflexivity.
  - destruct n as [i| | | |]; try discriminate.
    exists (Number_toString (SafeInt i)).
    split; [reflexivity|]. split; [apply (number_text_head i "")|].
    split; [intros rest; apply (number_text_head i rest)|].
    intros [|fuel] rest Hfuel Hf; [simpl in Hfuel; lia|].
    rewrite parse_value_number by apply (number_text_head i rest).
    now rewrite parse_number_toString.
  - exists (QuoteJSONString s). repeat split; [simpl; lia|].
    intros [|fuel] rest Hfuel _; [simpl in Hfuel; lia|].
    apply parse_value_string.
  - rewrite is_json_array in Hj. rewrite serialize_array, weight_array.
    eexists. split; [reflexivity|].
    destruct l as [|e l].
    + repeat split; [simpl; lia|].
      intros [|fuel] rest Hfuel _; [lia | reflexivity].
    + assert (e :: l <> []) as Hne by congruence.
      pose proof (sum_weight_items _ IH Hj Hne) as Hlen.
      split; [|split; [reflexivity|]].
      * change ("[" ++ ?x) with (String "[" x).
        change (String.length (String "[" ?x)) with (S (String.length x)).
        rewrite length_append. change (String.length "]") with 1. lia.
      * intros [|fuel] rest Hfuel _; [lia|].
        change ("[" ++ ?x) with (String "[" x).
        change (String "[" ?x ++ rest) with (String "[" (x ++ rest)).
        rewrite append_assoc. change ("]" ++ rest) with (String "]" rest).
        rewrite parse_value_array, peek_not_bracket.
        -- rewrite (parse_elements_items _ IH Hj Hne); [reflexivity | lia].
        -- inversion IH as [|? ? He _]; subst.
           simpl in Hj. apply andb_prop in Hj as [Hje _].
           destruct (He Hje) as (t & Ht & _ & Hstart & _).
           change (items (e :: l)) with (text_or_null e :: items l).
           unfold text_or_null at 1. rewrite Ht, join_cons_append.
           apply Hstart.
  - rewrite is_json_object in Hj. apply andb_prop in Hj as [Hj Hvals].
    apply andb_prop in Hj as [Hd Hi]. apply negb_true_iff in Hi.
    rewrite serialize_object, weight_object.
    eexists. split; [reflexivity|].
    destruct ps as [|[k e] ps].
    + repeat split; [simpl; lia|].
      intros [|fuel] rest Hfuel _; [lia | reflexivity].
    + assert ((k, e) :: ps <> []) as Hne by congruence.
      pose proof (sum_weight_members _ IH Hvals Hne) as Hlen.
      split; [|split; [reflexivity|]].
      * change ("{" ++ ?x) with (String "{" x).
        change (String.length (String "{" ?x)) with (S (String.length x)).
        rewrite length_append. change (String.length "}") with 1. lia.
      * intros [|fuel] rest Hfuel _; [lia|].
        change ("{" ++ ?x) with (String "{" x).
        change (String "{" ?x ++ rest) with (String "{" (x ++ rest)).
        rewrite append_assoc. change ("}" ++ rest) with (String "}" rest).
        rewrite parse_value_object, peek_not_brace.
        -- rewrite (parse_members_text _ IH Hvals Hne); [|lia].
           cbn [and_then fst snd].
           now rewrite build_object_plain.
        -- inversion IH as [|? ? He _]; subst. simpl in He.
           simpl in Hvals. apply andb_prop in Hvals as [Hje _].
           destruct (He Hje) as (t & Ht & _).
           rewrite (members_cons _ _ _ _ Ht), join_cons_append.
           reflexivity.
Qed.

(** [JSON.parse(JSON.stringify(v))] is [v] for all such data. *)
Lemma parse_stringify (v : value) :
  is_json_value v = true ->
  exists t, SerializeJSONProperty v = Some t /\ parse t = Ok v.
Proof.
  intros Hj. destruct (reads_back_all v Hj) as (t & Ht & Hlen & _ & Hparse).
  exists t. split; [exact Ht|]. unfold parse.
  rewrite <- (append_nil_r t) at 2.
  rewrite Hparse by (reflexivity || lia). reflexivity.
Qed.

(** * The helper [api] *)

Lemma default_body_data (body : value) :
  match Value body with
  | Value VUndefined => Value VNull
  | _ => Value body
  end
  = Value (match body with VUndefined => VNull | _ => body end).
Proof. now destruct body. Qed.

Lemma body_text_of_data (b : value) :
  (if is_truthy b then evaluate (stringify b) else ret None)
  = ret (if ToBoolean b then SerializeJSONProperty b else None).
Proof. simpl. now destruct (ToBoolean b). Qed.

Section ApiFacts.

Variable network : list Request.t -> Request.t -> settled Response.t.
Variable log : list Request.t.
Variables (path : string) (method : option string) (body : value).

(** With data as its body, the call hands exactly [sent_request] to
    [fetch], once, whatever comes back. *)
Lemma api_log :
  snd (api network path method body log)
  = (log ++ [sent_request path method body])%list.
Proof.
  unfold api. cbv zeta.
  rewrite default_body_data, body_text_of_data.
  unfold bind at 1. unfold ret at 1.
  unfold bind, fetch. fold (sent_request path method body).
  destruct (network log _) as [res|e]; [|reflexivity].
  destruct (Response.ok res); simpl; [reflexivity|].
  unfold try_catch, bind, Response_json, ret, new_Error.
  destruct (Response.json res) as [j|e]; simpl.
  - destruct (ToBoolean (optional_member j "message"));
      [destruct (ToString _)|]; reflexivity.
  - reflexivity.
Qed.

(** What the call settles to, by cases on what the network and the
    response give. *)
Lemma api_settles :
  fst (api network path method body log)
  = match network log (sent_request path method body) with
    | Rejected e => Rejected e
    | Resolved res =>
        if Response.ok res then Response.json res
        else
          let fallback := VStr (default_message (Response.status res)) in
          let msg :=
            match Response.json res with
            | Resolved j =>
                if ToBoolean (optional_member j "message")
                then optional_member j "message"
                else fallback
            | Rejected _ => fallback
            end in
          match ToString msg with
          | Some s => Rejected (Error s)
          | None =>
              Rejected (TypeError "Cannot convert object to primitive value")
          end
    end.
Proof.
  unfold api. cbv zeta.
  rewrite default_body_data, body_text_of_data.
  unfold bind at 1. unfold ret at 1.
  unfold bind, fetch. fold (sent_request path method body).
  destruct (network log _) as [res|e]; [|reflexivity].
  destruct (Response.ok res); simpl; [reflexivity|].
  unfold try_catch, bind, Response_json, ret, new_Error.
  destruct (Response.json res) as [j|e]; simpl.
  - destruct (ToBoolean (optional_member j "message"));
      [destruct (ToString _)|]; reflexivity.
  - reflexivity.
Qed.

End ApiFacts.

(** A throw of [JSON.stringify(body)] is the call's rejection, and nothing
    is handed to [fetch]. *)
Lemma api_stringify_throws network log path method (body : argument) (e : exn) :
  is_truthy body = true ->
  stringify body = Abrupt e ->
  api network path method body log = (Rejected e, log).
Proof.
  intros Ht Hs. unfold api. cbv zeta.
  assert (Hb : match body with
               | Value VUndefined => Value VNull
               | _ => body
               end = body)
    by (destruct body as [[]| | | |]; try reflexivity; discriminate).
  rewrite Hb, Ht, Hs. reflexivity.
Qed.

Lemma serialize_none (v : value) :
  SerializeJSONProperty v = None -> v = VUndefined.
Proof.
  destruct v as [ | | [] | n | s | l | ps]; simpl; intros H;
    first [reflexivity | discriminate H].
Qed.

(** An argument without a text (a falsy argument, or one for which
    [JSON.stringify] returns [undefined]) goes out as the omitted body
    does. *)
Lemma api_no_text network log path method (body : argument) :
  is_truthy body = false \/ stringify body = Normal None ->
  api network path method body log = api network path method VUndefined log.
Proof.
  intros H. unfold api. cbv zeta.
  assert (E : (if is_truthy match body with
                            | Value VUndefined => Value VNull
                            | _ => body
                            end
               then evaluate (stringify match body with
                                        | Value VUndefined => Value VNull
                                        | _ => body
                                        end)
               else ret None) = ret None).
  { destruct body as [v|z| | |]; simpl in H.
    - assert (Hv : v = VUndefined \/ ToBoolean v = false).
      { destruct H as [H|H]; [now right|].
        left. apply serialize_none. congruence. }
      destruct Hv as [->|Hf]; [reflexivity|].
      rewrite default_body_data, body_text_of_data.
      assert (ToBoolean match v with VUndefined => VNull | _ => v end = false)
        as -> by (destruct v; assumption || reflexivity).
      reflexivity.
    - destruct H as [H|H]; [|discriminate]. simpl. now rewrite H.
    - reflexivity.
    - reflexivity.
    - destruct H as [H|H]; [discriminate|]. simpl. now rewrite H. }
  rewrite E. reflexivity.
Qed.

Lemma decimal_exact (n : N) :
  option_map N.of_uint (NilEmpty.uint_of_string (decimal n)) = Some n.
Proof.
  unfold decimal. rewrite NilEmpty.usu. simpl.
  now rewrite DecimalN.Unsigned.of_to.
Qed.

Lemma decimal_is_numeral (n : N) : is_decimal_numeral (decimal n) n.
Proof. apply NilEmpty.usu. Qed.

Lemma sent_request_falsy (path : string) (method : option string)
      (body : value) :
  ToBoolean body = false ->
  sent_request path method body = sent_request path method VUndefined.
Proof.
  intros H. unfold sent_request.
  destruct body as [ | | b | n | s | l | ps]; simpl in *;
    try reflexivity; now rewrite H.
Qed.

Lemma sent_request_truthy (path : string) (method : option string)
      (body : value) :
  ToBoolean body = true ->
  Request.body (sent_request path method body) = SerializeJSONProperty body.
Proof.
  intros H. unfold sent_request.
  destruct body as [ | | b | n | s | l | ps]; simpl in *;
    try discriminate; now rewrite ?H.
Qed.

(** With a truthy argument that [JSON.stringify] has an outcome for, the
    call hands one request to [fetch], its body being that outcome. *)
Lemma api_log_truthy network log path method (body : argument)
      (text : option string) :
  is_truthy body = true ->
  stringify body = Normal text ->
  snd (api network path method body log)
  = (log ++ [fetch_arguments path
               (match method with Some m => m | None => "GET" end) text])%list.
Proof.
  intros Ht Hs. unfold api. cbv zeta.
  assert (Hb : match body with
               | Value VUndefined => Value VNull
               | _ => body
               end = body)
    by (destruct body as [[]| | | |]; try reflexivity; discriminate).
  rewrite Hb, Ht, Hs. unfold evaluate.
  unfold bind at 1. unfold ret at 1.
  unfold bind, fetch.
  destruct (network log _) as [res|e]; [|reflexivity].
  destruct (Response.ok res); simpl; [reflexivity|].
  unfold try_catch, bind, Response_json, ret, new_Error.
  destruct (Response.json res) as [j|e]; simpl.
  - destruct (ToBoolean (optional_member j "message"));
      [destruct (ToString _)|]; reflexivity.
  - reflexivity.
Qed.

(** ** Scenarios of the specification *)

Example login_scenario :
  fst (api (respond login_response) "/login" (Some "POST") credentials_body [])
  = Resolved (VObj [("token", VStr "xyz")]).
Proof. reflexivity. Qed.

Example login_scenario_body :
  exists req t,
    snd (api (respond login_response) "/login" (Some "POST")
             credentials_body []) = [req] /\
    Request.url req = "/api/login" /\
    Request.body req = Some t /\
    parse t = Ok credentials_body.
Proof. do 2 eexists. repeat split; reflexivity. Qed.

Example not_found_scenario :
  fst (api (respond not_found_response) "/users/1" None VUndefined [])
  = Rejected (Error "not found").
Proof. reflexivity. Qed.

Example unavailable_scenario :
  api (respond unavailable_response) "/ping" None VUndefined []
  = (Rejected (Error "Request failed (503)"),
     [{| Request.url := "/api/ping";
         Request.method := "GET";
         Request.credentials := "include";
         Request.headers := [("Content-Type", "application/json")];
         Request.body := None |}]).
Proof. reflexivity. Qed.

Example internal_error_message : default_message 500 = "Request failed (500)".
Proof. reflexivity. Qed.

(** ** The claims *)

(** C1.  When the response has a success status and its body parses as
    JSON, the call resolves with exactly the parsed value. *)
Theorem api_resolves_with_parsed_body
        network log path method body (res : Response.t) (v : value) :
  network log (sent_request path method body) = Resolved res ->
  Response.ok res = true ->
  Response.json res = Resolved v ->
  fst (api network path method body log) = Resolved v.
Proof.
  intros Hnet Hok Hjson. now rewrite api_settles, Hnet, Hok.
Qed.

Lemma api_resolves_with_parsed_body_witness :
  Response.ok login_response = true /\
  fst (api (respond login_response) "/login" (Some "POST") credentials_body [])
  = Resolved (VObj [("token", VStr "xyz")]).
Proof.
  split; [reflexivity|].
  apply (api_resolves_with_parsed_body
           (respond login_response) [] "/login" (Some "POST") credentials_body
           login_response (VObj [("token", VStr "xyz")]));
    reflexivity.
Defined.

(** C2, as stated, fails: a response with status 400 whose JSON body has
    the message field set to the empty string is rejected with the default
    message, not with the field's value. *)
Lemma api_empty_message_counterexample :
  Response.ok empty_message_response = false /\
  Response.json empty_message_response
  = Resolved (VObj [("message", VStr EmptyString)]) /\
  fst (api (respond empty_message_response) "/users/1" None VUndefined [])
  = Rejected (Error "Request failed (400)") /\
  fst (api (respond empty_message_response) "/users/1" None VUndefined [])
  <> Rejected (Error EmptyString).
Proof. repeat split; try reflexivity. discriminate. Qed.

(** C2, amended.  When the response has a non-success status and its body
    parses to an object with a message field whose value is truthy, the
    call rejects with an Error whose message is that value converted to a
    string, which for a string value is the value itself; when the value
    cannot be converted to a string, the call rejects with the TypeError
    of the conversion instead. *)
Theorem api_rejects_with_truthy_message
        network log path method body (res : Response.t)
        (props : list (string * value)) (m : value) :
  network log (sent_request path method body) = Resolved res ->
  Response.ok res = false ->
  Response.json res = Resolved (VObj props) ->
  own_property props "message" = Some m ->
  ToBoolean m = true ->
  (forall s, m = VStr s ->
             fst (api network path method body log) = Rejected (Error s)) /\
  (forall s, ToString m = Some s ->
             fst (api network path method body log) = Rejected (Error s)) /\
  (ToString m = None ->
   exists text,
     fst (api network path method body log) = Rejected (TypeError text)).
Proof.
  intros Hnet Hok Hjson Hm Ht.
  rewrite api_settles, Hnet, Hok, Hjson. cbv zeta.
  unfold optional_member. rewrite Hm, Ht.
  repeat split.
  - intros s ->. reflexivity.
  - intros s Hs. now rewrite Hs.
  - intros Hs. rewrite Hs. eexists. reflexivity.
Qed.

Lemma api_rejects_with_truthy_message_witness :
  Response.ok not_found_response = false /\
  ToBoolean (VStr "not found") = true /\
  fst (api (respond not_found_response) "/users/1" None VUndefined [])
  = Rejected (Error "not found").
Proof.
  split; [reflexivity|]. split; [reflexivity|].
  apply (proj1 (api_rejects_with_truthy_message
                  (respond not_found_response) [] "/users/1" None VUndefined
                  not_found_response [("message", VStr "not found")]
                  (VStr "not found") eq_refl eq_refl eq_refl eq_refl eq_refl)
               "not found").
  reflexivity.
Defined.

(** C3.  When the response has a non-success status and its body either
    cannot be read as JSON or parses to a value without a message field,
    the call rejects with the Error whose message is
    [Request failed (<status>)], where [<status>] is the decimal numeral
    of the status code. *)
Theorem api_rejects_with_default_message
        network log path method body (res : Response.t) :
  network log (sent_request path method body) = Resolved res ->
  Response.ok res = false ->
  (exists e, Response.json res = Rejected e) \/
  (exists j, Response.json res = Resolved j /\ has_field j "message" = false) ->
  exists digits,
    fst (api network path method body log)
    = Rejected (Error ("Request failed (" ++ digits ++ ")")) /\
    is_decimal_numeral digits (Response.status res).
Proof.
  intros Hnet Hok Hbody. exists (decimal (Response.status res)).
  split; [|apply decimal_is_numeral].
  rewrite api_settles, Hnet, Hok.
  destruct Hbody as [[e He] | (j & Hj & Hno)].
  - now rewrite He.
  - rewrite Hj.
    assert (optional_member j "message" = VUndefined) as ->.
    { destruct j as [ | | b | n | s | l | ps]; try reflexivity.
      simpl in *. now destruct (own_property ps "message"). }
    reflexivity.
Qed.

Lemma api_rejects_with_default_message_witness :
  Response.ok internal_error_response = false /\
  has_field (VObj [("error", VStr "boom")]) "message" = false /\
  fst (api (respond internal_error_response) "/ping" None VUndefined [])
  = Rejected (Error "Request failed (500)") /\
  exists digits,
    fst (api (respond internal_error_response) "/ping" None VUndefined [])
    = Rejected (Error ("Request failed (" ++ digits ++ ")")) /\
    is_decimal_numeral digits 500.
Proof.
  do 3 (split; [reflexivity|]).
  apply (api_rejects_with_default_message
           (respond internal_error_response) [] "/ping" None VUndefined
           internal_error_response);
    [reflexivity | reflexivity |].
  right. eexists. split; reflexivity.
Defined.




(** C5.  When the body argument is omitted, the outbound request carries
    no body. *)
Theorem api_no_body_when_omitted network log path method :
  exists req,
    snd (api network path method VUndefined log) = (log ++ [req])%list /\
    Request.body req = None.
Proof.
  exists (sent_request path method VUndefined).
  split; [apply api_log | reflexivity].
Qed.

(** C6.  The one outbound request of a call goes to the base prefix
    followed by the path, with the given method or GET when the method is
    omitted, with credentials included, and with a JSON content type
    header. *)
Theorem api_request_construction network log path method (body : value) :
  exists req,
    snd (api network path method body log) = (log ++ [req])%list /\
    Request.url req = "/api" ++ path /\
    Request.method req = match method with Some m => m | None => "GET" end /\
    Request.credentials req = "include" /\
    Request.headers req = [("Content-Type", "application/json")].
Proof.
  exists (sent_request path method body).
  split; [apply api_log|]. repeat split.
Qed.

(** C7.  When the response has a success status and reading its body as
    JSON fails, the call rejects with that very failure. *)
Theorem api_propagates_parse_failure
        network log path method body (res : Response.t) (e : exn) :
  network log (sent_request path method body) = Resolved res ->
  Response.ok res = true ->
  Response.json res = Rejected e ->
  fst (api network path method body log) = Rejected e.
Proof.
  intros Hnet Hok Hjson. now rewrite api_settles, Hnet, Hok.
Qed.

Lemma api_propagates_parse_failure_witness :
  Response.ok no_content_response = true /\
  parse EmptyString = Syntax_error /\
  fst (api (respond no_content_response) "/logout" (Some "POST") VUndefined [])
  = Rejected empty_body_failure.
Proof.
  split; [reflexivity|]. split; [reflexivity|].
  apply (api_propagates_parse_failure
           (respond no_content_response) [] "/logout" (Some "POST") VUndefined
           no_content_response empty_body_failure);
    reflexivity.
Defined.

(** C8, as stated, fails: with the BigInt [10n] as its body the call makes
    no outbound call at all; [JSON.stringify] throws while the arguments
    of [fetch] are evaluated and the call rejects with that TypeError. *)
Lemma api_bigint_body_counterexample :
  is_truthy (BigInt 10) = true /\
  snd (api (respond login_response) "/counter" (Some "POST") (BigInt 10) [])
  = [] /\
  exists text,
    fst (api (respond login_response) "/counter" (Some "POST") (BigInt 10) [])
    = Rejected (TypeError text).
Proof. repeat split. eexists. reflexivity. Qed.

(** C8, amended.  A call never invokes [fetch] more than once.  It invokes
    [fetch] exactly once (the log grows by one request, whatever the
    network answers and however the body reads) whenever the body argument
    is falsy or [JSON.stringify(body)] does not throw; when the argument
    is truthy and [JSON.stringify(body)] throws, the call rejects with the
    thrown exception and [fetch] is not invoked. *)
Theorem api_fetch_count network log path method (body : argument) :
  (is_truthy body = false \/ (exists text, stringify body = Normal text) ->
   (exists req, snd (api network path method body log) = (log ++ [req])%list)
   /\ length (snd (api network path method body log)) = S (length log))
  /\
  (forall e, is_truthy body = true -> stringify body = Abrupt e ->
             api network path method body log = (Rejected e, log))
  /\
  length (snd (api network path method body log)) <= S (length log).
Proof.
  assert (One : is_truthy body = false \/
                (exists text, stringify body = Normal text) ->
                exists req,
                  snd (api network path method body log) = (log ++ [req])%list).
  { intros H. destruct (is_truthy body) eqn:Ht.
    - destruct H as [H | [text Hs]]; [discriminate|].
      eexists. apply api_log_truthy with (text := text); assumption.
    - rewrite api_no_text by now left.
      eexists. apply api_log. }
  assert (Zero : forall e, is_truthy body = true -> stringify body = Abrupt e ->
                           api network path method body log = (Rejected e, log))
    by (intros e Ht Hs; now apply api_stringify_throws).
  split; [|split; [exact Zero|]].
  - intros H. split; [now apply One|].
    destruct (One H) as [req ->]. rewrite length_app. simpl. lia.
  - destruct (is_truthy body) eqn:Ht.
    + destruct (stringify body) as [text|e] eqn:Hs.
      * destruct One as [req ->]; [right; now exists text|].
        rewrite length_app. simpl. lia.
      * rewrite (Zero e eq_refl eq_refl). simpl. lia.
    + destruct One as [req ->]; [now left|].
      rewrite length_app. simpl. lia.
Qed.

Lemma api_fetch_count_witness :
  ((exists req,
       snd (api (respond login_response) "/login" (Some "POST")
                credentials_body []) = ([] ++ [req])%list)
   /\ length (snd (api (respond login_response) "/login" (Some "POST")
                       credentials_body [])) = 1)
  /\
  api (respond login_response) "/counter" (Some "POST") (BigInt 10) []
  = (Rejected (TypeError "Do not know how to serialize a BigInt"), [])
  /\
  api (respond login_response) "/graph" (Some "POST") circular []
  = (Rejected (TypeError "Converting circular structure to JSON"), []).
Proof.
  split; [|split].
  - apply (proj1 (api_fetch_count (respond login_response) [] "/login"
                                  (Some "POST") credentials_body)).
    right. eexists. reflexivity.
  - apply (proj1 (proj2 (api_fetch_count (respond login_response) [] "/counter"
                                         (Some "POST") (BigInt 10))));
      reflexivity.
  - apply (proj1 (proj2 (api_fetch_count (respond login_response) [] "/graph"
                                         (Some "POST") circular)));
      reflexivity.
Defined.



(** C10, as stated, fails: a response with status 400 whose JSON body
    parses, and has for its message field an object with a property named
    toString, is rejected with the TypeError of the Error constructor's
    string conversion, not with an Error carrying a message. *)
Lemma api_object_message_counterexample :
  Response.ok object_message_response = false /\
  (exists j, Response.json object_message_response = Resolved j) /\
  fst (api (respond object_message_response) "/items" None VUndefined [])
  = Rejected (TypeError "Cannot convert object to primitive value") /\
  forall s,
    fst (api (respond object_message_response) "/items" None VUndefined [])
    <> Rejected (Error s).
Proof.
  split; [reflexivity|]. split; [eexists; reflexivity|].
  split; [reflexivity|]. intros s. discriminate.
Qed.

(** C10, amended.  When the response has a non-success status, a failure
    of reading or parsing its body is swallowed: the call rejects with the
    Error that carries the default message, not with that failure.  When
    the body parses, the call rejects with an Error carrying the default
    message (no message field, or a falsy one) or the message field
    converted to a string (a truthy one), except that a truthy message
    which cannot be converted to a string makes the call reject with the
    TypeError of the conversion. *)
Theorem api_swallows_body_failure
        network log path method body (res : Response.t) :
  network log (sent_request path method body) = Resolved res ->
  Response.ok res = false ->
  (forall e, Response.json res = Rejected e ->
             fst (api network path method body log)
             = Rejected (Error (default_message (Response.status res)))) /\
  (forall j, Response.json res = Resolved j ->
             has_field j "message" = false ->
             fst (api network path method body log)
             = Rejected (Error (default_message (Response.status res)))) /\
  (forall props m,
      Response.json res = Resolved (VObj props) ->
      own_property props "message" = Some m ->
      (ToBoolean m = false ->
       fst (api network path method body log)
       = Rejected (Error (default_message (Response.status res)))) /\
      (forall s, ToBoolean m = true -> ToString m = Some s ->
                 fst (api network path method body log) = Rejected (Error s)) /\
      (ToBoolean m = true -> ToString m = None ->
       exists text,
         fst (api network path method body log) = Rejected (TypeError text))).
Proof.
  intros Hnet Hok. rewrite api_settles, Hnet, Hok. cbv zeta.
  split; [|split].
  - intros e He. now rewrite He.
  - intros j Hj Hno. rewrite Hj.
    assert (optional_member j "message" = VUndefined) as ->.
    { destruct j as [ | | b | n | s | l | ps]; try reflexivity.
      simpl in *. now destruct (own_property ps "message"). }
    reflexivity.
  - intros props m Hj Hm. rewrite Hj. unfold optional_member. rewrite Hm.
    repeat split.
    + intros Hf. now rewrite Hf.
    + intros s Ht Hs. now rewrite Ht, Hs.
    + intros Ht Hs. rewrite Ht, Hs. eexists. reflexivity.
Qed.

Lemma api_swallows_body_failure_witness :
  Response.ok unavailable_response = false /\
  Response.json unavailable_response = Rejected empty_body_failure /\
  fst (api (respond unavailable_response) "/ping" None VUndefined [])
  = Rejected (Error "Request failed (503)").
Proof.
  split; [reflexivity|]. split; [reflexivity|].
  apply (proj1 (api_swallows_body_failure
                  (respond unavailable_response) [] "/ping" None VUndefined
                  unavailable_response eq_refl eq_refl)
               empty_body_failure).
  reflexivity.
Defined.

(** * Further properties of [api] *)

(** X1.  A transport failure of [fetch] is the call's rejection: the call
    rejects with the very exception [fetch] rejected with, after the one
    request, and no response is read. *)
Theorem api_rejects_with_transport_failure
        network log path method body (e : exn) :
  network log (sent_request path method body) = Rejected e ->
  api network path method body log
  = (Rejected e, (log ++ [sent_request path method body])%list).
Proof.
  intros H. rewrite (surjective_pairing (api network path method body log)).
  now rewrite api_settles, api_log, H.
Qed.

Lemma api_rejects_with_transport_failure_witness :
  api offline "/ping" None VUndefined []
  = (Rejected (TypeError "Failed to fetch"),
     ([] ++ [sent_request "/ping" None VUndefined])%list).
Proof.
  apply (api_rejects_with_transport_failure
           offline [] "/ping" None VUndefined (TypeError "Failed to fetch")).
  reflexivity.
Defined.

(** X2.  The call resolves with a value exactly when [fetch] resolves with
    a response of success status whose body parses to that value; in every
    other case it rejects. *)
Theorem api_resolves_iff network log path method (body : value) (v : value) :
  fst (api network path method body log) = Resolved v
  <-> exists res,
        network log (sent_request path method body) = Resolved res /\
        Response.ok res = true /\
        Response.json res = Resolved v.
Proof.
  rewrite api_settles. split.
  - destruct (network log _) as [res|e]; [|discriminate].
    destruct (Response.ok res) eqn:Hok.
    + intros H. now exists res.
    + cbv zeta. destruct (ToString _); discriminate.
  - intros (res & Hnet & Hok & Hjson). now rewrite Hnet, Hok.
Qed.

(** X3.  When the response has a non-success status and the message field
    of its body is falsy (the empty string, 0, false, null), the field is
    not used: the call rejects with the default message. *)
Theorem api_falsy_message_default
        network log path method body (res : Response.t)
        (props : list (string * value)) (m : value) :
  network log (sent_request path method body) = Resolved res ->
  Response.ok res = false ->
  Response.json res = Resolved (VObj props) ->
  own_property props "message" = Some m ->
  ToBoolean m = false ->
  fst (api network path method body log)
  = Rejected (Error (default_message (Response.status res))).
Proof.
  intros Hnet Hok Hjson Hm Hf.
  rewrite api_settles, Hnet, Hok, Hjson. simpl. now rewrite Hm, Hf.
Qed.

Lemma api_falsy_message_default_witness :
  Response.ok zero_message_response = false /\
  ToBoolean (VNum (Int 0)) = false /\
  fst (api (respond zero_message_response) "/items" (Some "POST")
           credentials_body [])
  = Rejected (Error "Request failed (422)").
Proof.
  split; [reflexivity|]. split; [reflexivity|].
  apply (api_falsy_message_default
           (respond zero_message_response) [] "/items" (Some "POST")
           credentials_body zero_message_response
           [("message", VNum (Int 0))] (VNum (Int 0)));
    reflexivity.
Defined.

(** X4.  For a body argument that is JSON data (null, a boolean, a finite
    number, a string, an array or an object), the outbound request of the
    call goes without a body exactly when the argument is null, false, 0,
    -0 or the empty string.  Every other such argument, the empty array
    and the empty object included, is sent. *)
Theorem api_request_body_absent_iff network log path method (body : value) :
  is_json_data body = true ->
  exists req,
    snd (api network path method body log) = (log ++ [req])%list /\
    (Request.body req = None
     <-> body = VNull \/ body = VBool false \/ body = VNum (Int 0) \/
         body = VNum NegZero \/ body = VStr EmptyString).
Proof.
  intros Hd. exists (sent_request path method body). split; [apply api_log|].
  unfold sent_request, fetch_arguments. split.
  - destruct body as [ | | [] | [i| | | |] | [|c s] | l | ps]; simpl in *;
      intros H; try discriminate; try tauto.
    destruct (integer i =? 0)%Z eqn:E; [|discriminate H].
    right. right. left. do 2 f_equal.
    apply safe_integer_eq. simpl. now apply Z.eqb_eq.
  - intros [-> | [-> | [-> | [-> | ->]]]]; reflexivity.
Qed.

Lemma api_request_body_absent_iff_witness :
  is_json_data (VArr []) = true /\
  exists req,
    snd (api (respond login_response) "/items" (Some "POST") (VArr []) [])
    = ([] ++ [req])%list /\
    (Request.body req = None
     <-> VArr [] = VNull \/ VArr [] = VBool false \/ VArr [] = VNum (Int 0) \/
         VArr [] = VNum NegZero \/ VArr [] = VStr EmptyString).
Proof.
  split; [reflexivity|].
  apply (api_request_body_absent_iff
           (respond login_response) [] "/items" (Some "POST") (VArr [])).
  reflexivity.
Defined.

(** X5.  When the response has a non-success status and the message field
    of its body is an object with a property named toString, the Error
    constructor cannot convert it: the call rejects with a TypeError, not
    with an Error carrying a message. *)
Theorem api_unconvertible_message
        network log path method body (res : Response.t)
        (props mprops : list (string * value)) (x : value) :
  network log (sent_request path method body) = Resolved res ->
  Response.ok res = false ->
  Response.json res = Resolved (VObj props) ->
  own_property props "message" = Some (VObj mprops) ->
  own_property mprops "toString" = Some x ->
  exists text,
    fst (api network path method body log) = Rejected (TypeError text).
Proof.
  intros Hnet Hok Hjson Hm Hx.
  rewrite api_settles, Hnet, Hok, Hjson. simpl. rewrite Hm. simpl.
  rewrite Hx. eexists. reflexivity.
Qed.

Lemma api_unconvertible_message_witness :
  Response.ok object_message_response = false /\
  exists text,
    fst (api (respond object_message_response) "/items" None VUndefined [])
    = Rejected (TypeError text).
Proof.
  split; [reflexivity|].
  apply (api_unconvertible_message
           (respond object_message_response) [] "/items" None VUndefined
           object_message_response
           [("message", VObj [("toString", VNum (Int 1))])]
           [("toString", VNum (Int 1))] (VNum (Int 1)));
    reflexivity.
Defined.

(** X6.  The default message determines the status: two statuses with the
    same default message are the same status. *)
Theorem default_message_injective (s1 s2 : N) :
  default_message s1 = default_message s2 -> s1 = s2.
Proof.
  unfold default_message. intros H.
  assert (Hd : decimal s1 ++ ")" = decimal s2 ++ ")").
  { simpl in H. now inversion H. }
  apply (f_equal read_digits) in Hd. unfold decimal in Hd.
  rewrite !read_digits_string_of_uint in Hd by reflexivity.
  apply DecimalN.Unsigned.to_uint_inj. congruence.
Qed.

Lemma default_message_injective_witness :
  default_message 500 = "Request failed (500)" /\ (500 = 500)%N.
Proof.
  split; [reflexivity|].
  apply (default_message_injective 500 500). reflexivity.
Defined.

(** X8.  When the response has a non-success status and the message field
    of its body, if there is one, is a primitive value, the call rejects
    with an Error whose message is not empty. *)
Theorem api_error_message_nonempty
        network log path method body (res : Response.t) :
  network log (sent_request path method body) = Resolved res ->
  Response.ok res = false ->
  (forall j, Response.json res = Resolved j ->
             is_primitive (optional_member j "message") = true) ->
  exists s,
    fst (api network path method body log) = Rejected (Error s) /\
    s <> EmptyString.
Proof.
  intros Hnet Hok Hprim. rewrite api_settles, Hnet, Hok. cbv zeta.
  assert (Hdef : default_message (Response.status res) <> EmptyString)
    by discriminate.
  destruct (Response.json res) as [j|e]; [|eexists; split; [reflexivity|exact Hdef]].
  specialize (Hprim j eq_refl).
  destruct (ToBoolean (optional_member j "message")) eqn:Ht;
    [|eexists; split; [reflexivity|exact Hdef]].
  destruct (optional_member j "message") as [ | | [] | n | s | l | ps];
    try discriminate; (eexists; split; [reflexivity|]).
  - discriminate.
  - destruct n as [i| | | |]; try discriminate.
    destruct (number_text_head i EmptyString) as [Hlen _].
    intros E. rewrite E in Hlen. simpl in Hlen. lia.
  - simpl in Ht. destruct s; [discriminate Ht | discriminate].
Qed.

Lemma api_error_message_nonempty_witness :
  Response.ok not_found_response = false /\
  exists s,
    fst (api (respond not_found_response) "/users/1" None VUndefined [])
    = Rejected (Error s) /\ s <> EmptyString.
Proof.
  split; [reflexivity|].
  apply (api_error_message_nonempty
           (respond not_found_response) [] "/users/1" None VUndefined
           not_found_response); try reflexivity.
  intros j Hj. inversion Hj. reflexivity.
Defined.

Lemma ToString_string_array (l : list string) :
  ToString (VArr (map VStr l)) = Some (join "," l).
Proof.
  simpl.
  assert (H : (fix parts (l0 : list value) : option (list string) :=
                 match l0 with
                 | [] => Some []
                 | e :: rest =>
                     match
                       match e with
                       | VUndefined | VNull => Some EmptyString
                       | _ => ToString e
                       end, parts rest
                     with
                     | Some s, Some ss => Some (s :: ss)
                     | _, _ => None
                     end
                 end) (map VStr l) = Some l).
  { induction l as [|s l IH]; simpl; [reflexivity | now rewrite IH]. }
  now rewrite H.
Qed.

(** X10.  When the response has a non-success status and the message field
    of its body is an array of strings, the call rejects with an Error
    whose message is those strings joined by commas. *)
Theorem api_message_array_joined
        network log path method body (res : Response.t)
        (props : list (string * value)) (msgs : list string) :
  network log (sent_request path method body) = Resolved res ->
  Response.ok res = false ->
  Response.json res = Resolved (VObj props) ->
  own_property props "message" = Some (VArr (map VStr msgs)) ->
  fst (api network path method body log) = Rejected (Error (join "," msgs)).
Proof.
  intros Hnet Hok Hjson Hm.
  rewrite api_settles, Hnet, Hok, Hjson. cbv zeta.
  unfold optional_member. rewrite Hm.
  change (ToBoolean (VArr (map VStr msgs))) with true. cbv iota.
  now rewrite ToString_string_array.
Qed.

Lemma api_message_array_joined_witness :
  Response.ok validation_response = false /\
  fst (api (respond validation_response) "/signup" (Some "POST")
           credentials_body [])
  = Rejected (Error "name is required,email is invalid").
Proof.
  split; [reflexivity|].
  apply (api_message_array_joined
           (respond validation_response) [] "/signup" (Some "POST")
           credentials_body validation_response
           [("statusCode", VNum (Int 400));
            ("message", VArr [VStr "name is required"; VStr "email is invalid"])]
           ["name is required"; "email is invalid"]);
    reflexivity.
Defined.

(** X11.  A falsy argument, [0n] included, and an argument for which
    [JSON.stringify] returns [undefined] (a function, a symbol) are
    treated as an omitted body: the call behaves as if no body had been
    passed, and its one request goes out without a body. *)
Theorem api_argument_without_text network log path method (body : argument) :
  is_truthy body = false \/ stringify body = Normal None ->
  api network path method body log = api network path method VUndefined log /\
  exists req,
    snd (api network path method body log) = (log ++ [req])%list /\
    Request.body req = None.
Proof.
  intros H. rewrite (api_no_text _ _ _ _ _ H). split; [reflexivity|].
  exists (sent_request path method VUndefined).
  split; [apply api_log | reflexivity].
Qed.

Lemma api_argument_without_text_witness :
  is_truthy (BigInt 0) = false /\
  stringify Callable = Normal None /\
  api (respond login_response) "/counter" (Some "POST") (BigInt 0) []
  = api (respond login_response) "/counter" (Some "POST") VUndefined [] /\
  api (respond login_response) "/counter" (Some "POST") Callable []
  = api (respond login_response) "/counter" (Some "POST") VUndefined [].
Proof.
  do 2 (split; [reflexivity|]). split.
  - apply (proj1 (api_argument_without_text
                    (respond login_response) [] "/counter" (Some "POST")
                    (BigInt 0) (or_introl eq_refl))).
  - apply (proj1 (api_argument_without_text
                    (respond login_response) [] "/counter" (Some "POST")
                    Callable (or_intror eq_refl))).
Defined.
